(** * aws-ci/git_check_release.py: the release sync runner

    A shallow embedding of the script [aws-ci/git_check_release.py] and the
    properties of its branch-name derivation, of its command sequence and of
    its decision on the output of [git pull].

    Python's [str] is modelled by [string], holding the UTF-8 encoding of the
    text; a [bytes] object is a [list Byte.byte].  The calls that leave the
    process ([os.system], [os.chdir], [subprocess.run], [print]) are run
    against an explicit operating system, and every call is recorded in a
    log, in the order the script makes it.  The standard output of the
    script is taken to be open, with an encoding that has the ASCII
    characters; what else it can encode is the operating system's. *)

From Stdlib Require Import Strings.String Strings.Ascii Strings.Byte.
From Stdlib Require Import List ZArith Lia Bool.
From Stdlib Require Import PrimFloat FloatOps SpecFloat.
Import ListNotations.

Set Implicit Arguments.
Open Scope string_scope.

(** ** Python values and exceptions *)

(** The values [args.tf_version] can hold: the text that follows
    [--tf_version] on the command line, or the float default. *)
Inductive py_value : Type :=
| PyStr (s : string)
| PyFloat (f : float).

(** The exceptions the modelled calls can raise. *)
Inductive exn : Type :=
| ValueError
| KeyError (key : string)
| OSError
| UnicodeDecodeError
| UnicodeEncodeError.

Inductive result (A : Type) : Type :=
| Ok (a : A)
| Raise (e : exn).

Arguments Ok {A} a.
Arguments Raise {A} e.

(** ** [repr] of a float

    [str.format] renders a float through [float.__repr__]: the shortest
    decimal digit string that reads back as the same binary64 value, the
    closest one to it when several have that length, laid out in fixed
    notation when the decimal point falls in (-4, 16] and in exponent
    notation otherwise. *)
Module FloatRepr.

Local Open Scope Z_scope.

(** A positive rational as numerator and denominator. *)
Definition pow2 (e : Z) : Z * Z :=
  if 0 <=? e then (2 ^ e, 1) else (1, 2 ^ (- e)).

Definition pow10 (d : Z) : Z * Z :=
  if 0 <=? d then (10 ^ d, 1) else (1, 10 ^ (- d)).

Definition qmul (a b : Z * Z) : Z * Z := (fst a * fst b, snd a * snd b).

Definition qlt (a b : Z * Z) : bool := fst a * snd b <? fst b * snd a.

Definition qle (a b : Z * Z) : bool := fst a * snd b <=? fst b * snd a.

Definition qfloor (a : Z * Z) : Z := fst a / snd a.

Definition of_Z (n : Z) : Z * Z := (n, 1).

(** The least [d] from [d0] on with [x < 10 ^ d]. *)
Fixpoint find_decpt (fuel : nat) (x : Z * Z) (d : Z) : Z :=
  match fuel with
  | O => d
  | S fuel' => if qlt x (pow10 d) then d else find_decpt fuel' x (d + 1)
  end.

(** Whether the decimal [c * 10 ^ k] reads back as the float of mantissa [m]
    and exponent [e]: it lies within half a unit in the last place on either
    side (a quarter below a power of two), the ends included when [m] is
    even. *)
Definition reads_back (m e c k : Z) : bool :=
  let below := if (m =? 2 ^ 52) && (-1074 <? e) then 1 else 2 in
  let lo := qmul (of_Z (4 * m - below)) (pow2 (e - 2)) in
  let hi := qmul (of_Z (4 * m + 2)) (pow2 (e - 2)) in
  let v := qmul (of_Z c) (pow10 k) in
  if Z.even m then qle lo v && qle v hi else qlt lo v && qlt v hi.

(** The digits of the shortest decimal, as an integer [c], with the
    exponent [k] of ten that scales it. *)
Fixpoint shortest (fuel : nat) (m e decpt n : Z) : Z * Z :=
  let x := qmul (of_Z m) (pow2 e) in
  let k := decpt - n in
  let y := qmul x (pow10 (- k)) in
  let fl := qfloor y in
  match fuel with
  | O => (fl, k)
  | S fuel' =>
      let twice := qmul (of_Z 2) y in
      let mid := of_Z (2 * fl + 1) in
      let down_first :=
        if qlt twice mid then true
        else if qlt mid twice then false
        else Z.even fl in
      let first := if down_first then fl else fl + 1 in
      let second := if down_first then fl + 1 else fl in
      if reads_back m e first k then (first, k)
      else if reads_back m e second k then (second, k)
      else shortest fuel' m e decpt (n + 1)
  end.

Definition digit_char (d : Z) : ascii := ascii_of_N (48 + Z.to_N d).

(** The decimal digits of [n >= 0], most significant first. *)
Fixpoint digits (fuel : nat) (n : Z) (acc : string) : string :=
  match fuel with
  | O => acc
  | S fuel' =>
      let acc' := String (digit_char (n mod 10)) acc in
      if n <? 10 then acc' else digits fuel' (n / 10) acc'
  end.

Definition digits_of (n : Z) : string :=
  digits (S (Z.to_nat (Z.log2 n))) n "".

Fixpoint strip_zeros_rev (s : list ascii) : list ascii :=
  match s with
  | "0"%char :: s' => strip_zeros_rev s'
  | _ => s
  end.

Definition strip_trailing_zeros (s : string) : string :=
  string_of_list_ascii
    (rev (strip_zeros_rev (rev (list_ascii_of_string s)))).

Fixpoint zeros (n : nat) : string :=
  match n with
  | O => ""
  | S n' => String "0" (zeros n')
  end.

Definition two_digits (n : Z) : string :=
  if n <? 10 then String "0" (digits_of n) else digits_of n.

(** The layout of [float_repr_style = 'short'] for the digit string [ds]
    whose value is [0.ds * 10 ^ decpt]. *)
Definition layout (ds : string) (decpt : Z) : string :=
  let len := Z.of_nat (String.length ds) in
  if (decpt <=? -4) || (16 <? decpt) then
    let mant :=
      match ds with
      | String d EmptyString => ds
      | String d rest => String d (String "." rest)
      | EmptyString => ds
      end in
    let ex := decpt - 1 in
    let sgn := if ex <? 0 then "-"%string else "+"%string in
    (mant ++ "e" ++ sgn ++ two_digits (Z.abs ex))%string
  else if decpt <=? 0 then
    let pad := zeros (Z.to_nat (- decpt)) in
    ("0." ++ pad ++ ds)%string
  else if len <=? decpt then
    let pad := zeros (Z.to_nat (decpt - len)) in
    (ds ++ pad ++ ".0")%string
  else
    let whole := substring 0 (Z.to_nat decpt) ds in
    let frac := substring (Z.to_nat decpt) (Z.to_nat (len - decpt)) ds in
    (whole ++ "." ++ frac)%string.

Definition repr_finite (m e : Z) : string :=
  let x := qmul (of_Z m) (pow2 e) in
  let decpt := find_decpt 700 x (-330) in
  let '(c, k) := shortest 17 m e decpt 1 in
  let all := digits_of c in
  layout (strip_trailing_zeros all) (Z.of_nat (String.length all) + k).

Definition sign_prefix (s : bool) : string := if s then "-" else "".

Definition repr_spec (f : spec_float) : string :=
  match f with
  | S754_zero s => (sign_prefix s ++ "0.0")%string
  | S754_infinity s => (sign_prefix s ++ "inf")%string
  | S754_nan => "nan"%string
  | S754_finite s m e => (sign_prefix s ++ repr_finite (Z.pos m) e)%string
  end.

Definition repr (f : float) : string := repr_spec (Prim2SF f).

End FloatRepr.

(** ** Strings *)

(** [str(v)], which is also what a replacement field with no format
    specification renders. *)
Definition py_str (v : py_value) : string :=
  match v with
  | PyStr s => s
  | PyFloat f => FloatRepr.repr f
  end.

(** [sub in s] on two [str]. *)
Fixpoint str_in (sub s : string) : bool :=
  if prefix sub s then true
  else
    match s with
    | EmptyString => false
    | String _ s' => str_in sub s'
    end.

(** Whether a text has ASCII characters only. *)
Fixpoint is_ascii (s : string) : bool :=
  match s with
  | EmptyString => true
  | String (Ascii _ _ _ _ _ _ _ high) s' => negb high && is_ascii s'
  end.

(** A double quote, and the line end [print] writes. *)
Definition dq : string := String "034"%char EmptyString.
Definition nl : string := String "010"%char EmptyString.

(** [sep.join(parts)]. *)
Fixpoint join (sep : string) (parts : list string) : string :=
  match parts with
  | [] => ""
  | [p] => p
  | p :: rest => p ++ sep ++ join sep rest
  end.

(** Keyword arguments, in the order written. *)
Definition kwargs : Type := list (string * py_value).

Fixpoint lookup (name : string) (kw : kwargs) : option py_value :=
  match kw with
  | [] => None
  | (k, v) :: kw' => if String.eqb name k then Some v else lookup name kw'
  end.

(** [tpl.format] with keyword arguments [kw], for templates whose
    replacement fields are plain keyword names, as all templates of the
    script are: the text outside braces is copied, a doubled brace stands
    for one brace, and a field [{name}] is replaced by [str] of the argument
    of that name.  The inserted text is not scanned again.  [field] is
    [Some n] while a field is open, [n] being the part of its name read so
    far.  Conversions, format specifications and attribute or index access
    do not occur in the script and are not modelled: such a field is looked
    up by its whole text. *)
Fixpoint format_from (tpl : string) (field : option string) (kw : kwargs)
  : result string :=
  match field with
  | None =>
      match tpl with
      | EmptyString => Ok ""
      | String "{" (String "{" rest) =>
          match format_from rest None kw with
          | Ok s => Ok (String "{" s)
          | Raise e => Raise e
          end
      | String "{" rest => format_from rest (Some "") kw
      | String "}" (String "}" rest) =>
          match format_from rest None kw with
          | Ok s => Ok (String "}" s)
          | Raise e => Raise e
          end
      | String "}" _ => Raise ValueError
      | String c rest =>
          match format_from rest None kw with
          | Ok s => Ok (String c s)
          | Raise e => Raise e
          end
      end
  | Some name =>
      match tpl with
      | EmptyString => Raise ValueError
      | String "{" _ => Raise ValueError
      | String "}" rest =>
          match lookup name kw with
          | None => Raise (KeyError name)
          | Some v =>
              match format_from rest None kw with
              | Ok s => Ok (py_str v ++ s)
              | Raise e => Raise e
              end
          end
      | String c rest => format_from rest (Some (name ++ String c "")) kw
      end
  end.

Definition format (tpl : string) (kw : kwargs) : result string :=
  format_from tpl None kw.

(** ** [bytes.decode('utf-8')] *)

Definition byte_in (lo hi : N) (b : byte) : bool :=
  (lo <=? Byte.to_N b)%N && (Byte.to_N b <=? hi)%N.

(** A continuation byte, 0x80 to 0xBF. *)
Definition continuation : byte -> bool := byte_in 128 191.

(** Well-formed UTF-8: no overlong form, no surrogate, nothing above
    U+10FFFF. *)
Fixpoint utf8_valid (bs : list byte) : bool :=
  match bs with
  | [] => true
  | b :: rest =>
      if byte_in 0 127 b then utf8_valid rest
      else if byte_in 194 223 b then
        match rest with
        | c1 :: r1 => continuation c1 && utf8_valid r1
        | _ => false
        end
      else if byte_in 224 239 b then
        match rest with
        | c1 :: c2 :: r2 =>
            (if byte_in 224 224 b then byte_in 160 191 c1
             else if byte_in 237 237 b then byte_in 128 159 c1
             else continuation c1)
            && continuation c2 && utf8_valid r2
        | _ => false
        end
      else if byte_in 240 244 b then
        match rest with
        | c1 :: c2 :: c3 :: r3 =>
            (if byte_in 240 240 b then byte_in 144 191 c1
             else if byte_in 244 244 b then byte_in 128 143 c1
             else continuation c1)
            && continuation c2 && continuation c3 && utf8_valid r3
        | _ => false
        end
      else false
  end.

(** [bs.decode('utf-8')], with the default strict error handling. *)
Definition decode_utf8 (bs : list byte) : result string :=
  if utf8_valid bs then Ok (string_of_list_byte bs)
  else Raise UnicodeDecodeError.

Arguments py_str : simpl never.

(** ** The command line *)

(** The namespace [parser.parse_args()] returns. *)
Record Namespace : Type := { tf_version : py_value }.

(** [default=2.4] of [parser.add_argument]: a float literal, which
    [argparse] stores as it is. *)
#[warnings="-inexact-float"]
Definition default_tf_version : py_value := PyFloat 2.4%float.

(** [parser.parse_args()], by what the command line gives for
    [--tf_version]: nothing, or the text of its argument, which stays a
    [str] as the option declares no [type]. *)
Definition parse_args (flag : option string) : Namespace :=
  match flag with
  | None => {| tf_version := default_tf_version |}
  | Some s => {| tf_version := PyStr s |}
  end.

(** ** The strings [main] builds *)

(** Line 15, [tf_branch]. *)
Definition tf_branch (args : Namespace) : result string :=
  format "r{tf_version}_aws" [("tf_version", tf_version args)].

(** Line 16, [git_branch]. *)
Definition git_branch (args : Namespace) : result string :=
  format "r{tf_version}" [("tf_version", tf_version args)].

(** Line 19, the argument of [os.system]. *)
Definition checkout_command (tf_branch : string) : result string :=
  format "git checkout {tf_branch}" [("tf_branch", PyStr tf_branch)].

(** Line 20, the argument of [os.system]. *)
Definition new_branch_command (args : Namespace) : result string :=
  format "git checkout -b r{tf_version}_aws_git"
    [("tf_version", tf_version args)].

(** Lines 22 and 23, the argument list of [git pull]. *)
Definition pull_argv (git_branch : string) : list string :=
  ["git"; "pull"; "--commit"; "google"; git_branch].

(** Line 26, the text looked for in the output of [git pull]. *)
Definition up_to_date_text : string := "Already up to date".

(** Line 29, the argument of [os.system]. *)
Definition push_command (args : Namespace) : result string :=
  format "git push --set-upstream origin r{tf_version}_aws_git"
    [("tf_version", tf_version args)].

(** Lines 30 and 31, the template: two adjacent literals, which Python joins
    before [format] is applied. *)
Definition pull_request_template : string :=
  "aws codecommit create-pull-request --title " ++ dq ++
  "TF{tf_version} git sync" ++ dq ++ " --description " ++ dq ++
  "Sync tf {tf_version} with vanilla tf branch" ++ dq ++ " " ++
  "--client-request-token request_token --targets repositoryName=aws-tensorflow,sourceReference=r{tf_version}_aws_git,destinationReference={tf_branch}".

(** Lines 30 to 32, the argument of [os.system]. *)
Definition pull_request_command (args : Namespace) (tf_branch : string)
  : result string :=
  format pull_request_template
    [("tf_version", tf_version args); ("tf_branch", PyStr tf_branch)].

(** ** The operating system *)

(** What a child process leaves behind: its exit status and what it wrote to
    its standard output and to its standard error. *)
Record child : Type := {
  exit_status : Z;
  to_stdout : list byte;
  to_stderr : list byte
}.

(** The operating system over a world [W]: [system] runs a shell command
    and gives its exit status, [chdir] fails when the directory cannot be
    entered, [spawn] fails when the program cannot be started, and
    [encodes] tells the texts the encoding of the standard output of the
    script can encode. *)
Record OS (W : Type) : Type := {
  system : string -> W -> Z * W;
  chdir : string -> W -> option W;
  spawn : list string -> W -> option child * W;
  encodes : string -> bool
}.

(** Whether [sys.stdout] takes a text: an ASCII text always, another text
    when the encoding has its characters. *)
Definition can_print {W : Type} (os : OS W) (text : string) : bool :=
  is_ascii text || encodes os text.


(** The same operating system with other exit statuses of its shell
    commands. *)
Definition with_status {W : Type} (os : OS W) (status : string -> W -> Z)
  : OS W :=
  {| system := fun cmd w => (status cmd w, snd (system os cmd w));
     chdir := chdir os;
     spawn := spawn os;
     encodes := encodes os |}.

(** The same operating system with other text on the standard error of its
    child processes. *)
Definition with_stderr {W : Type} (os : OS W)
  (err : list string -> W -> list byte) : OS W :=
  {| system := system os;
     chdir := chdir os;
     spawn := fun argv w =>
       (match fst (spawn os argv w) with
        | Some c => Some {| exit_status := exit_status c;
                            to_stdout := to_stdout c;
                            to_stderr := err argv w |}
        | None => None
        end, snd (spawn os argv w));
     encodes := encodes os |}.

(** The calls of the script that leave the process, each with what the
    operating system answered, as the log records them.  [EvPrint] is a
    [print] that wrote its line, [EvPrintRefused] one that raised on it,
    whatever part of the line went out before. *)
Inductive event : Type :=
| EvSystem (cmd : string) (status : Z)
| EvChdir (path : string) (entered : bool)
| EvRun (argv : list string) (outcome : option child)
| EvPrint (text : string)
| EvPrintRefused (text : string).

(** What [subprocess.run(argv, stdout=subprocess.PIPE)] returns: the
    standard error is not captured, so its attribute is [None]. *)
Record CompletedProcess : Type := {
  returncode : Z;
  stdout : list byte;
  stderr : option (list byte)
}.

Section Runner.

Context {W : Type} (os : OS W).

Record state : Type := { world : W; log : list event }.

(** A computation of the script: it may raise, and it changes the world
    and extends the log. *)
Definition M (A : Type) : Type := state -> result A * state.

Definition ret {A : Type} (a : A) : M A := fun st => (Ok a, st).

Definition bind {A B : Type} (c : M A) (k : A -> M B) : M B :=
  fun st =>
    match c st with
    | (Ok a, st') => k a st'
    | (Raise e, st') => (Raise e, st')
    end.

Definition lift {A : Type} (r : result A) : M A := fun st => (r, st).

Definition record (e : event) (st : state) : list event := log st ++ [e].

(** [os.system(cmd)]: the exit status is the value of the call. *)
Definition os_system (cmd : string) : M Z :=
  fun st =>
    let r := system os cmd (world st) in
    (Ok (fst r),
     {| world := snd r; log := record (EvSystem cmd (fst r)) st |}).

(** [os.chdir(path)]. *)
Definition os_chdir (path : string) : M unit :=
  fun st =>
    match chdir os path (world st) with
    | Some w' =>
        (Ok tt, {| world := w'; log := record (EvChdir path true) st |})
    | None =>
        (Raise OSError,
         {| world := world st; log := record (EvChdir path false) st |})
    end.

(** [subprocess.run(argv, stdout=subprocess.PIPE)]: no [check], so the exit
    status raises nothing. *)
Definition subprocess_run (argv : list string) : M CompletedProcess :=
  fun st =>
    let r := spawn os argv (world st) in
    let st' := {| world := snd r; log := record (EvRun argv (fst r)) st |} in
    match fst r with
    | Some c =>
        (Ok {| returncode := exit_status c;
               stdout := to_stdout c;
               stderr := None |}, st')
    | None => (Raise OSError, st')
    end.

(** [print] of strings: the objects separated by a space, and a line
    end; it raises when the standard output cannot encode them. *)
Definition print (objects : list string) : M unit :=
  fun st =>
    let line := join " " objects ++ nl in
    if can_print os line then
      (Ok tt, {| world := world st; log := record (EvPrint line) st |})
    else
      (Raise UnicodeEncodeError,
       {| world := world st; log := record (EvPrintRefused line) st |}).

Notation "x <- c ;; k" := (bind c (fun x => k))
  (at level 61, c at next level, right associativity).
Notation "c ;;; k" := (bind c (fun _ => k))
  (at level 61, right associativity).

(** [main()], statement by statement; [args] is the module's global. *)
Definition main (args : Namespace) : M unit :=
  tf_branch <- lift (tf_branch args) ;;
  git_branch <- lift (git_branch args) ;;
  os_system "git clone codecommit::us-west-2://aws-tensorflow" ;;;
  os_chdir "aws-tensorflow/" ;;;
  checkout <- lift (checkout_command tf_branch) ;;
  os_system checkout ;;;
  new_branch <- lift (new_branch_command args) ;;
  os_system new_branch ;;;
  os_system "git remote add google https://github.com/tensorflow/tensorflow.git" ;;;
  print (pull_argv git_branch) ;;;
  proc <- subprocess_run (pull_argv git_branch) ;;
  output <- lift (decode_utf8 (stdout proc)) ;;
  print [output] ;;;
  os_system "git status" ;;;
  if str_in up_to_date_text output then
    print ["Branch already up to date."]
  else
    push <- lift (push_command args) ;;
    os_system push ;;;
    pull_request <- lift (pull_request_command args tf_branch) ;;
    os_system pull_request ;;;
    ret tt.

(** The script run in a fresh process: the result of [main] and the log of
    its calls. *)
Definition run (args : Namespace) (w : W) : result unit * list event :=
  let r := main args {| world := w; log := [] |} in
  (fst r, log (snd r)).

End Runner.

(** ** The names and commands the properties speak of

    The branch names and command lines below are written as the properties
    state them, from the rendered version [v]; the theorems relate them to
    what [main] builds. *)

Definition target_branch (v : string) : string := "r" ++ v ++ "_aws".

Definition upstream_branch (v : string) : string := "r" ++ v.

Definition sync_branch (v : string) : string := "r" ++ v ++ "_aws_git".

Definition git_clone : string :=
  "git clone codecommit::us-west-2://aws-tensorflow".

Definition work_dir : string := "aws-tensorflow/".

Definition git_checkout (branch : string) : string :=
  "git checkout " ++ branch.

Definition git_checkout_new (branch : string) : string :=
  "git checkout -b " ++ branch.

Definition git_remote_add : string :=
  "git remote add google https://github.com/tensorflow/tensorflow.git".

Definition git_status : string := "git status".

Definition git_push_upstream (branch : string) : string :=
  "git push --set-upstream origin " ++ branch.

Definition create_pull_request
  (title description token source destination : string) : string :=
  "aws codecommit create-pull-request --title " ++ dq ++ title ++ dq ++
  " --description " ++ dq ++ description ++ dq ++
  " --client-request-token " ++ token ++
  " --targets repositoryName=aws-tensorflow,sourceReference=" ++ source ++
  ",destinationReference=" ++ destination.

Definition pr_title (v : string) : string := "TF" ++ v ++ " git sync".

Definition pr_description (v : string) : string :=
  "Sync tf " ++ v ++ " with vanilla tf branch".

Definition pr_token : string := "request_token".

Definition up_to_date_message : string := "Branch already up to date." ++ nl.

(** The text of the version as every template receives it,
    [str(args.tf_version)]. *)
Definition rendered (args : Namespace) : string := py_str (tf_version args).

(** A call without the answer it got. *)
Inductive call : Type :=
| CSystem (cmd : string)
| CChdir (path : string)
| CRun (argv : list string)
| CPrint (text : string).

Definition call_of (e : event) : call :=
  match e with
  | EvSystem cmd _ => CSystem cmd
  | EvChdir path _ => CChdir path
  | EvRun argv _ => CRun argv
  | EvPrint text => CPrint text
  | EvPrintRefused text => CPrint text
  end.

Definition is_print (c : call) : bool :=
  match c with
  | CPrint _ => true
  | _ => false
  end.

(** The calls of a log that reach outside the process and its console. *)
Definition invocations (l : list event) : list call :=
  filter (fun c => negb (is_print c)) (map call_of l).

(** The seven steps before the decision, in order. *)
Definition steps (v : string) : list call :=
  [CSystem git_clone;
   CChdir work_dir;
   CSystem (git_checkout (target_branch v));
   CSystem (git_checkout_new (sync_branch v));
   CSystem git_remote_add;
   CRun (pull_argv (upstream_branch v));
   CSystem git_status].

(** The two steps of the sync path, in order. *)
Definition sync_steps (v : string) : list call :=
  [CSystem (git_push_upstream (sync_branch v));
   CSystem (create_pull_request (pr_title v) (pr_description v) pr_token
              (sync_branch v) (target_branch v))].

(** Whether an event is a shell command that starts with [p]. *)
Definition system_with (p : string) (e : event) : bool :=
  match e with
  | EvSystem cmd _ => prefix p cmd
  | _ => false
  end.

Definition pushes (l : list event) : bool :=
  existsb (system_with "git push") l.

Definition opens_pull_request (l : list event) : bool :=
  existsb (system_with "aws codecommit create-pull-request") l.

(** The log up to the start of [git pull], by the exit statuses of the
    shell commands. *)
Definition prelude (v : string) (s1 s2 s3 s4 : Z) : list event :=
  [EvSystem git_clone s1;
   EvChdir work_dir true;
   EvSystem (git_checkout (target_branch v)) s2;
   EvSystem (git_checkout_new (sync_branch v)) s3;
   EvSystem git_remote_add s4;
   EvPrint (join " " (pull_argv (upstream_branch v)) ++ nl)].

(** The log before the command line of [git pull] is echoed. *)
Definition before_echo (v : string) (s1 s2 s3 s4 : Z) : list event :=
  [EvSystem git_clone s1;
   EvChdir work_dir true;
   EvSystem (git_checkout (target_branch v)) s2;
   EvSystem (git_checkout_new (sync_branch v)) s3;
   EvSystem git_remote_add s4].

(** The ways a run can go, each with its result and its whole log;
    [printable] tells the lines the standard output takes. *)
Inductive run_shape (printable : string -> bool) (v : string)
  : result unit * list event -> Prop :=
| shape_no_directory (s1 : Z) :
    run_shape printable v
      (Raise OSError, [EvSystem git_clone s1; EvChdir work_dir false])
| shape_echo_refused (s1 s2 s3 s4 : Z) :
    printable (join " " (pull_argv (upstream_branch v)) ++ nl) = false ->
    run_shape printable v
      (Raise UnicodeEncodeError,
       (before_echo v s1 s2 s3 s4 ++
        [EvPrintRefused (join " " (pull_argv (upstream_branch v)) ++ nl)])%list)
| shape_no_program (s1 s2 s3 s4 : Z) :
    run_shape printable v
      (Raise OSError,
       (prelude v s1 s2 s3 s4 ++
        [EvRun (pull_argv (upstream_branch v)) None])%list)
| shape_undecodable (s1 s2 s3 s4 : Z) (c : child) :
    decode_utf8 (to_stdout c) = Raise UnicodeDecodeError ->
    run_shape printable v
      (Raise UnicodeDecodeError,
       (prelude v s1 s2 s3 s4 ++
        [EvRun (pull_argv (upstream_branch v)) (Some c)])%list)
| shape_output_refused (s1 s2 s3 s4 : Z) (c : child) (output : string) :
    decode_utf8 (to_stdout c) = Ok output ->
    printable (output ++ nl) = false ->
    run_shape printable v
      (Raise UnicodeEncodeError,
       (prelude v s1 s2 s3 s4 ++
        [EvRun (pull_argv (upstream_branch v)) (Some c);
         EvPrintRefused (output ++ nl)])%list)
| shape_up_to_date (s1 s2 s3 s4 s5 : Z) (c : child) (output : string) :
    decode_utf8 (to_stdout c) = Ok output ->
    printable (output ++ nl) = true ->
    str_in up_to_date_text output = true ->
    run_shape printable v
      (Ok tt,
       (prelude v s1 s2 s3 s4 ++
        [EvRun (pull_argv (upstream_branch v)) (Some c);
         EvPrint (output ++ nl);
         EvSystem git_status s5;
         EvPrint up_to_date_message])%list)
| shape_sync (s1 s2 s3 s4 s5 s6 s7 : Z) (c : child) (output : string) :
    decode_utf8 (to_stdout c) = Ok output ->
    printable (output ++ nl) = true ->
    str_in up_to_date_text output = false ->
    run_shape printable v
      (Ok tt,
       (prelude v s1 s2 s3 s4 ++
        [EvRun (pull_argv (upstream_branch v)) (Some c);
         EvPrint (output ++ nl);
         EvSystem git_status s5;
         EvSystem (git_push_upstream (sync_branch v)) s6;
         EvSystem
           (create_pull_request (pr_title v) (pr_description v) pr_token
              (sync_branch v) (target_branch v)) s7])%list).

(** The two outcomes of the test on the output of [git pull]. *)
Inductive decision : Type :=
| NoOp
| Sync.

(** The decision a log shows: none before [git status] was run, then
    [Sync] when a push or a pull request follows and [NoOp] when neither
    does. *)
Definition decision_of (l : list event) : option decision :=
  if existsb (system_with git_status) l then
    Some (if pushes l || opens_pull_request l then Sync else NoOp)
  else None.

(** The calls that carry a branch name, built from the version text [v]. *)
Definition branch_calls (v : string) : list call :=
  [CSystem (git_checkout (target_branch v));
   CSystem (git_checkout_new (sync_branch v));
   CRun (pull_argv (upstream_branch v));
   CSystem (git_push_upstream (sync_branch v));
   CSystem (create_pull_request (pr_title v) (pr_description v) pr_token
              (sync_branch v) (target_branch v))].



(** ** Scripted operating systems

    Every shell command exits with [status], the working directory can be
    entered, [git pull] writes [out] to its standard output and [err] to
    its standard error, and the standard output of the script encodes every
    text. *)
Definition scripted (status : Z) (out err : string) : OS unit :=
  {| system := fun _ w => (status, w);
     chdir := fun _ w => Some w;
     spawn := fun _ w =>
       (Some {| exit_status := status;
                to_stdout := list_byte_of_string out;
                to_stderr := list_byte_of_string err |}, w);
     encodes := fun _ => true |}.

(** A system where [git clone] leaves no directory behind. *)
Definition no_directory : OS unit :=
  {| system := fun _ w => (128%Z, w);
     chdir := fun _ _ => None;
     spawn := fun _ w => (None, w);
     encodes := fun _ => true |}.


Definition fast_forward : string :=
  "Updating abc123..def456" ++ nl ++ " Fast-forward" ++ nl.

(** The same operating system with other exit statuses of its child
    processes. *)
Definition with_exit_status {W : Type} (os : OS W)
  (code : list string -> W -> Z) : OS W :=
  {| system := system os;
     chdir := chdir os;
     spawn := fun argv w =>
       (match fst (spawn os argv w) with
        | Some c => Some {| exit_status := code argv w;
                            to_stdout := to_stdout c;
                            to_stderr := to_stderr c |}
        | None => None
        end, snd (spawn os argv w));
     encodes := encodes os |}.

(** A system where the directory can be entered and [git] cannot be
    started. *)
Definition no_git : OS unit :=
  {| system := fun _ w => (127%Z, w);
     chdir := fun _ w => Some w;
     spawn := fun _ w => (None, w);
     encodes := fun _ => true |}.



(** A byte that starts no UTF-8 sequence. *)
Definition stray_byte : string := String "255"%char EmptyString.

(** ** Strings: append and substrings *)

Lemma append_nil_r (s : string) : s ++ "" = s.
Proof.
  induction s as [|c s IH]; simpl; [reflexivity | now rewrite IH].
Qed.

Lemma append_assoc (a b c : string) : (a ++ b) ++ c = a ++ b ++ c.
Proof.
  induction a as [|x a IH]; simpl; [reflexivity | now rewrite IH].
Qed.

Lemma length_append (a b : string) :
  String.length (a ++ b) = String.length a + String.length b.
Proof.
  induction a as [|x a IH]; simpl; [reflexivity | now rewrite IH].
Qed.

(** Two strings of one length that start two equal texts are equal. *)
Lemma append_same_length (a b x y : string) :
  String.length a = String.length b -> a ++ x = b ++ y -> a = b.
Proof.
  revert b; induction a as [|c a IH]; intros [|d b] Hlen Heq;
    simpl in *; try discriminate; [reflexivity |].
  injection Heq as -> Heq. f_equal. apply IH; [lia | exact Heq].
Qed.

Lemma append_inv_tail (a b t : string) : a ++ t = b ++ t -> a = b.
Proof.
  intros H. apply append_same_length with (x := t) (y := t); [| exact H].
  apply (f_equal String.length) in H. rewrite !length_append in H. lia.
Qed.






(** ** What [main] builds *)

Lemma tf_branch_eq (args : Namespace) :
  tf_branch args = Ok (target_branch (rendered args)).
Proof. reflexivity. Qed.

Lemma git_branch_eq (args : Namespace) :
  git_branch args = Ok (upstream_branch (rendered args)).
Proof.
  unfold git_branch, format, upstream_branch, rendered; simpl.
  now rewrite append_nil_r.
Qed.

Lemma checkout_command_eq (b : string) :
  checkout_command b = Ok (git_checkout b).
Proof.
  unfold checkout_command, format, git_checkout; simpl.
  unfold py_str. now rewrite append_nil_r.
Qed.

Lemma new_branch_command_eq (args : Namespace) :
  new_branch_command args = Ok (git_checkout_new (sync_branch (rendered args))).
Proof. reflexivity. Qed.

Lemma push_command_eq (args : Namespace) :
  push_command args = Ok (git_push_upstream (sync_branch (rendered args))).
Proof. reflexivity. Qed.

Lemma pull_request_command_eq (args : Namespace) (b : string) :
  pull_request_command args b =
  Ok (create_pull_request (pr_title (rendered args))
        (pr_description (rendered args)) pr_token
        (sync_branch (rendered args)) b).
Proof.
  unfold pull_request_command, format, pull_request_template.
  unfold create_pull_request, pr_title, pr_description, pr_token, sync_branch.
  unfold rendered. simpl. unfold py_str at 4.
  rewrite !append_assoc, append_nil_r. reflexivity.
Qed.

Lemma decode_utf8_cases (bs : list byte) :
  (exists s, decode_utf8 bs = Ok s) \/
  decode_utf8 bs = Raise UnicodeDecodeError.
Proof.
  unfold decode_utf8. destruct (utf8_valid bs); [left; eauto | now right].
Qed.

(** Rewriting with the rendered commands, and running the monad. *)
Ltac render :=
  rewrite ?tf_branch_eq, ?git_branch_eq, ?checkout_command_eq,
    ?new_branch_command_eq, ?push_command_eq, ?pull_request_command_eq.

Ltac step :=
  cbn [bind lift ret os_system os_chdir subprocess_run record
       world log fst snd app stdout].

(** ** The ways a run can go *)

Section Steps.

Context {W : Type} (os : OS W).

Lemma bind_lift {A B : Type} (r : result A) (k : A -> M (W := W) B) st :
  bind (lift r) k st =
  match r with
  | Ok a => k a st
  | Raise e => (Raise e, st)
  end.
Proof. now destruct r. Qed.

Lemma bind_chdir {B : Type} (path : string) (k : unit -> M B) st :
  bind (os_chdir os path) k st =
  match chdir os path (world st) with
  | Some w' => k tt {| world := w'; log := record (EvChdir path true) st |}
  | None =>
      (Raise OSError,
       {| world := world st; log := record (EvChdir path false) st |})
  end.
Proof. unfold bind, os_chdir. now destruct (chdir os path (world st)). Qed.

Lemma bind_run {B : Type} (argv : list string)
  (k : CompletedProcess -> M B) st :
  bind (subprocess_run os argv) k st =
  let r := spawn os argv (world st) in
  let st' := {| world := snd r; log := record (EvRun argv (fst r)) st |} in
  match fst r with
  | Some c =>
      k {| returncode := exit_status c; stdout := to_stdout c;
           stderr := None |} st'
  | None => (Raise OSError, st')
  end.
Proof.
  unfold bind, subprocess_run. now destruct (fst (spawn os argv (world st))).
Qed.

Lemma bind_print {B : Type} (objects : list string) (k : unit -> M B) st :
  bind (print os objects) k st =
  if can_print os (join " " objects ++ nl) then
    k tt {| world := world st;
            log := record (EvPrint (join " " objects ++ nl)) st |}
  else
    (Raise UnicodeEncodeError,
     {| world := world st;
        log := record (EvPrintRefused (join " " objects ++ nl)) st |}).
Proof.
  unfold bind, print. now destruct (can_print os (join " " objects ++ nl)).
Qed.

(** The message of line 27 is ASCII: it is always printed. *)
Lemma print_message st :
  print os ["Branch already up to date."] st =
  (Ok tt,
   {| world := world st; log := record (EvPrint up_to_date_message) st |}).
Proof. reflexivity. Qed.

(** Every run has one of the seven shapes. *)
Lemma run_has_shape (args : Namespace) (w : W) :
  run_shape (can_print os) (rendered args) (run os args w).
Proof.
  unfold run, main. render. step. rewrite bind_chdir. step.
  destruct (chdir os _ _) as [w2|]; [| apply shape_no_directory].
  render. step. rewrite bind_print.
  destruct (can_print os (join " " (pull_argv _) ++ nl)) eqn:Hecho;
    [| now apply shape_echo_refused].
  step. rewrite bind_run. step.
  destruct (fst (spawn os _ _)) as [c|]; [| apply shape_no_program].
  rewrite ?bind_lift. step.
  destruct (decode_utf8 (to_stdout c)) as [output|e] eqn:Hdec.
  2:{ destruct (decode_utf8_cases (to_stdout c)) as [[s Hs]|Hs];
        rewrite Hs in Hdec; [discriminate |].
      injection Hdec as <-. now apply shape_undecodable. }
  step. rewrite bind_print. cbn [join].
  destruct (can_print os (output ++ nl)) eqn:Hout;
    [| now apply shape_output_refused].
  step. destruct (str_in up_to_date_text output) eqn:Hin.
  - rewrite print_message. step. now apply shape_up_to_date.
  - step. now apply shape_sync.
Qed.

End Steps.


(** ** Runs that capture the output of [git pull] *)

Section Captured.

Context {W : Type} (os : OS W).


End Captured.

(** ** Branch names *)

(** C1, as the code has it: for every version [v] the target branch is
    [r{v}_aws], the upstream branch is [r{v}], and the sync branch, which the
    new-branch and push commands name, is [r{v}_aws_git], the target branch
    with [_git] appended. *)
Theorem branch_names_of_version (v : py_value) :
  let args := {| tf_version := v |} in
  tf_branch args = Ok ("r" ++ py_str v ++ "_aws") /\
  git_branch args = Ok ("r" ++ py_str v) /\
  new_branch_command args =
    Ok ("git checkout -b " ++ "r" ++ py_str v ++ "_aws_git") /\
  push_command args =
    Ok ("git push --set-upstream origin " ++ "r" ++ py_str v ++ "_aws_git") /\
  "r" ++ py_str v ++ "_aws_git" = ("r" ++ py_str v ++ "_aws") ++ "_git".
Proof.
  intros args. repeat split; try reflexivity.
  - apply git_branch_eq.
  - simpl. now rewrite append_assoc.
Qed.

(** C1 as stated fails: for the version 2.4 the target branch is
    [r2.4_aws], not [r2.4_vendor], and the branch created is [r2.4_aws_git],
    not [r2.4_vendor_sync]. *)
Lemma branch_names_not_vendor :
  ~ (tf_branch (parse_args (Some "2.4")) = Ok "r2.4_vendor" /\
     git_branch (parse_args (Some "2.4")) = Ok "r2.4" /\
     new_branch_command (parse_args (Some "2.4")) =
       Ok "git checkout -b r2.4_vendor_sync").
Proof. intros [H _]. vm_compute in H. discriminate H. Qed.

(** [repr] on a few floats, as Python prints them. *)
#[warnings="-inexact-float"]
Example repr_tenth : FloatRepr.repr 0.1%float = "0.1".
Proof. vm_compute. reflexivity. Qed.

Example repr_whole : FloatRepr.repr 100%float = "100.0".
Proof. vm_compute. reflexivity. Qed.

#[warnings="-inexact-float"]
Example repr_large : FloatRepr.repr 1e22%float = "1e+22".
Proof. vm_compute. reflexivity. Qed.

#[warnings="-inexact-float"]
Example repr_sum : FloatRepr.repr (0.1 + 0.2)%float = "0.30000000000000004".
Proof. vm_compute. reflexivity. Qed.

Lemma default_rendered : rendered (parse_args None) = "2.4".
Proof. vm_compute. reflexivity. Qed.

(** C9: with no [--tf_version] the version is the float 2.4, not a string,
    and the branch names are those of the string "2.4": [r2.4_aws], [r2.4]
    and [r2.4_aws_git]. *)
#[warnings="-inexact-float"]
Theorem default_version_branches :
  tf_version (parse_args None) = PyFloat 2.4%float /\
  (forall s, tf_version (parse_args None) <> PyStr s) /\
  tf_branch (parse_args None) = Ok "r2.4_aws" /\
  git_branch (parse_args None) = Ok "r2.4" /\
  new_branch_command (parse_args None) = Ok "git checkout -b r2.4_aws_git" /\
  push_command (parse_args None) =
    Ok "git push --set-upstream origin r2.4_aws_git" /\
  tf_branch (parse_args None) = tf_branch (parse_args (Some "2.4")) /\
  git_branch (parse_args None) = git_branch (parse_args (Some "2.4")) /\
  new_branch_command (parse_args None) =
    new_branch_command (parse_args (Some "2.4")) /\
  push_command (parse_args None) = push_command (parse_args (Some "2.4")).
Proof.
  split; [reflexivity |]. split; [intros s H; discriminate H |].
  rewrite tf_branch_eq, git_branch_eq, new_branch_command_eq, push_command_eq.
  rewrite default_rendered. repeat split; reflexivity.
Qed.

(** ** The decision on the output of [git pull] *)




Lemma decision_sync (v : string) (s1 s2 s3 s4 s5 s6 s7 : Z)
  (argv : list string) (c : child) (output : string) :
  let l := (prelude v s1 s2 s3 s4 ++
            [EvRun argv (Some c); EvPrint (output ++ nl);
             EvSystem git_status s5;
             EvSystem (git_push_upstream (sync_branch v)) s6;
             EvSystem
               (create_pull_request (pr_title v) (pr_description v) pr_token
                  (sync_branch v) (target_branch v)) s7])%list in
  decision_of l = Some Sync /\ pushes l = true /\
  opens_pull_request l = true.
Proof. repeat split. Qed.

Section Decision.

Context {W : Type} (os : OS W).




End Decision.







(** ** The commands of a run *)

Section Commands.

Context {W : Type} (os : OS W).

(** C5: a pull request command of a run carries the version text in its
    title and in its description, names the sync branch as source and the
    target branch as destination, and its client request token is the
    constant [request_token]. *)
Theorem pull_request_carries_version (args : Namespace) (w : W)
  (cmd : string) (status : Z) :
  In (EvSystem cmd status) (snd (run os args w)) ->
  prefix "aws codecommit create-pull-request" cmd = true ->
  decision_of (snd (run os args w)) = Some Sync /\
  cmd =
  create_pull_request
    ("TF" ++ rendered args ++ " git sync")
    ("Sync tf " ++ rendered args ++ " with vanilla tf branch")
    "request_token"
    ("r" ++ rendered args ++ "_aws_git")
    ("r" ++ rendered args ++ "_aws").
Proof.
  intros Hin Hpre.
  destruct (run_has_shape os args w) as
    [s1 | s1 s2 s3 s4 He | s1 s2 s3 s4 | s1 s2 s3 s4 c' Hc
     | s1 s2 s3 s4 c' out Hc Hp | s1 s2 s3 s4 s5 c' out Hc Hp Hs
     | s1 s2 s3 s4 s5 s6 s7 c' out Hc Hp Hs];
    cbn [snd prelude before_echo app In] in Hin;
    repeat (destruct Hin as [Hin | Hin]; try discriminate Hin);
    try contradiction;
    injection Hin as <- <-; try discriminate Hpre.
  split; [| reflexivity].
  apply (decision_sync (rendered args) s1 s2 s3 s4 s5 s6 s7
           (pull_argv (upstream_branch (rendered args))) c' out).
Qed.


End Commands.

Lemma pull_request_carries_version_witness :
  decision_of
    (snd (run (scripted 0 fast_forward "") (parse_args (Some "2.6")) tt))
  = Some Sync /\
  create_pull_request "TF2.6 git sync" "Sync tf 2.6 with vanilla tf branch"
    "request_token" "r2.6_aws_git" "r2.6_aws" =
  create_pull_request "TF2.6 git sync" "Sync tf 2.6 with vanilla tf branch"
    "request_token" "r2.6_aws_git" "r2.6_aws".
Proof.
  apply (@pull_request_carries_version unit (scripted 0 fast_forward "")
           (parse_args (Some "2.6")) tt
           (create_pull_request "TF2.6 git sync"
              "Sync tf 2.6 with vanilla tf branch" "request_token"
              "r2.6_aws_git" "r2.6_aws") 0%Z).
  - vm_compute. do 10 right. left. reflexivity.
  - reflexivity.
Defined.

(** ** What a run does not depend on *)

Section Irrelevant.

Context {W : Type} (os : OS W).

(** Running the monad on a changed operating system. *)
Ltac step' :=
  cbn [bind lift ret os_system os_chdir subprocess_run record
       world log fst snd app stdout with_status with_stderr
       system chdir spawn to_stdout].

Lemma can_print_with_status (f : string -> W -> Z) (text : string) :
  can_print (with_status os f) text = can_print os text.
Proof. reflexivity. Qed.


Lemma status_irrelevant (f : string -> W -> Z) (args : Namespace) (w : W) :
  fst (run (with_status os f) args w) = fst (run os args w) /\
  map call_of (snd (run (with_status os f) args w)) =
  map call_of (snd (run os args w)).
Proof.
  unfold run, main. render. step'. rewrite !bind_chdir. step'.
  destruct (chdir os _ _) as [w2|]; [| split; reflexivity].
  render. step'. rewrite !bind_print, !can_print_with_status.
  destruct (can_print os _); [| split; reflexivity].
  step'. rewrite !bind_run. step'.
  destruct (fst (spawn os _ _)) as [c|]; [| split; reflexivity].
  rewrite ?bind_lift. step'.
  destruct (decode_utf8 (to_stdout c)) as [output|e]; [| split; reflexivity].
  step'. rewrite !bind_print, !can_print_with_status.
  destruct (can_print os _); [| split; reflexivity].
  step'. destruct (str_in up_to_date_text output);
    rewrite ?print_message; step'; split; reflexivity.
Qed.



(** A run raises at [os.chdir], at a [print] or at [git pull], never at a
    shell command. *)
Lemma raise_places (args : Namespace) (w : W) (e : exn) :
  fst (run os args w) = Raise e ->
  exists l,
    snd (run os args w) = (l ++ [EvChdir work_dir false])%list \/
    (exists text, snd (run os args w) = (l ++ [EvPrintRefused text])%list) \/
    exists outcome,
      snd (run os args w) =
      (l ++ [EvRun (pull_argv (upstream_branch (rendered args))) outcome])%list.
Proof.
  destruct (run_has_shape os args w) as
    [s1 | s1 s2 s3 s4 He | s1 s2 s3 s4 | s1 s2 s3 s4 c' Hc
     | s1 s2 s3 s4 c' out Hc Hp | s1 s2 s3 s4 s5 c' out Hc Hp Hs
     | s1 s2 s3 s4 s5 s6 s7 c' out Hc Hp Hs];
    cbn [fst snd]; intros H; try discriminate H.
  - exists [EvSystem git_clone s1]. now left.
  - exists (before_echo (rendered args) s1 s2 s3 s4). right. left.
    now eexists.
  - exists (prelude (rendered args) s1 s2 s3 s4). right. right.
    now exists None.
  - exists (prelude (rendered args) s1 s2 s3 s4). right. right.
    now exists (Some c').
  - exists (prelude (rendered args) s1 s2 s3 s4 ++
            [EvRun (pull_argv (upstream_branch (rendered args))) (Some c')])%list.
    right. left. exists (out ++ nl). now rewrite <- app_assoc.
Qed.

End Irrelevant.

(** C8, as the code has it: the exit status of a shell command is never
    looked at.  Whatever the exit statuses are, while the commands leave the
    same world behind, the run has the same result and makes the same
    calls; and a run that raises stopped at [os.chdir], at a [print] or at
    [git pull], not at a shell command. *)
Theorem exit_status_never_inspected {W : Type} (os : OS W)
  (f g : string -> W -> Z) (args : Namespace) (w : W) :
  fst (run (with_status os f) args w) = fst (run (with_status os g) args w) /\
  map call_of (snd (run (with_status os f) args w)) =
  map call_of (snd (run (with_status os g) args w)) /\
  forall e, fst (run (with_status os f) args w) = Raise e ->
    exists l,
      snd (run (with_status os f) args w) =
      (l ++ [EvChdir "aws-tensorflow/" false])%list \/
      (exists text,
         snd (run (with_status os f) args w) =
         (l ++ [EvPrintRefused text])%list) \/
      exists outcome,
        snd (run (with_status os f) args w) =
        (l ++ [EvRun ["git"; "pull"; "--commit"; "google";
                      ("r" ++ rendered args)%string] outcome])%list.
Proof.
  destruct (status_irrelevant os f args w) as [Hf1 Hf2].
  destruct (status_irrelevant os g args w) as [Hg1 Hg2].
  split; [congruence |]. split; [congruence |].
  intros e. apply raise_places.
Qed.

(** C8 as stated fails: when [git clone] fails and leaves no directory, the
    run does not go on to the checkout: it raises [OSError] at [os.chdir],
    after the clone and the attempt to enter the directory. *)
Lemma failed_clone_stops_run :
  run no_directory (parse_args (Some "2.4")) tt =
  (Raise OSError,
   [EvSystem "git clone codecommit::us-west-2://aws-tensorflow" 128;
    EvChdir "aws-tensorflow/" false]).
Proof. vm_compute. reflexivity. Qed.




(** ** One version for a whole run *)

(** The pull request command tells the version it was built from. *)
Lemma create_pull_request_inj (a b : string) :
  create_pull_request (pr_title a) (pr_description a) pr_token
    (sync_branch a) (target_branch a) =
  create_pull_request (pr_title b) (pr_description b) pr_token
    (sync_branch b) (target_branch b) ->
  a = b.
Proof.
  intros H.
  assert (Hlen : String.length a = String.length b).
  { apply (f_equal String.length) in H.
    unfold create_pull_request, pr_title, pr_description, pr_token,
      sync_branch, target_branch in H.
    rewrite !length_append in H. simpl in H. lia. }
  unfold create_pull_request, pr_title, pr_description in H. simpl in H.
  repeat injection H as H.
  rewrite !append_assoc in H.
  exact (append_same_length _ _ _ _ Hlen H).
Qed.

(** Peeling the characters two command lines share. *)
Ltac peel H :=
  unfold git_checkout, git_checkout_new, git_push_upstream, git_clone,
    git_remote_add, git_status, work_dir, pull_argv, target_branch,
    sync_branch, upstream_branch in H;
  simpl in H;
  repeat first [discriminate H | injection H as H].

(** A call built from the version [a] is no call of a run for another
    version. *)
Lemma branch_call_version (a b : string) (c : call) :
  In c (steps a ++ sync_steps a) -> In c (branch_calls b) -> b = a.
Proof.
  unfold steps, sync_steps, branch_calls. cbn [app In].
  intros Ha Hb.
  repeat (destruct Ha as [Ha | Ha]); try contradiction; subst c;
    repeat (destruct Hb as [Hb | Hb]); try contradiction;
    try discriminate Hb;
    try (apply create_pull_request_inj;
         exact (f_equal (fun c => match c with
                                  | CSystem s => s
                                  | _ => ""
                                  end) Hb));
    try (injection Hb as Hb;
         first [ exfalso; unfold create_pull_request in Hb; peel Hb; fail
               | peel Hb;
                 first [ now apply append_inv_tail in Hb
                       | exact Hb ] ]).
Qed.

(** The calls of a run are an initial part of the nine steps for its
    version. *)
Lemma invocations_initial {W : Type} (os : OS W) (args : Namespace) (w : W) :
  exists n,
    invocations (snd (run os args w)) =
    firstn n (steps (rendered args) ++ sync_steps (rendered args)).
Proof.
  destruct (run_has_shape os args w) as
    [s1 | s1 s2 s3 s4 He | s1 s2 s3 s4 | s1 s2 s3 s4 c' Hc
     | s1 s2 s3 s4 c' out Hc Hp | s1 s2 s3 s4 s5 c' out Hc Hp Hs
     | s1 s2 s3 s4 s5 s6 s7 c' out Hc Hp Hs];
    cbn [snd];
    [exists 2 | exists 5 | exists 6 | exists 6 | exists 6 | exists 7
    | exists 9];
    reflexivity.
Qed.

Lemma In_firstn {A : Type} (n : nat) (l : list A) (x : A) :
  In x (firstn n l) -> In x l.
Proof.
  intros H. rewrite <- (firstn_skipn n l). apply in_or_app. now left.
Qed.

(** C7: every call of a run that leaves the process is one of the calls
    built from the version the run was given, and a call that carries a
    branch name built from a version [v'] occurs only when [v'] is that
    version. *)
Theorem one_version_per_run {W : Type} (os : OS W) (args : Namespace)
  (w : W) :
  (forall c,
     In c (invocations (snd (run os args w))) ->
     In c (steps (py_str (tf_version args)) ++
           sync_steps (py_str (tf_version args)))) /\
  (forall v' c,
     In c (invocations (snd (run os args w))) ->
     In c (branch_calls v') ->
     v' = py_str (tf_version args)).
Proof.
  destruct (invocations_initial os args w) as [n Hn].
  assert (Hall : forall c,
             In c (invocations (snd (run os args w))) ->
             In c (steps (rendered args) ++ sync_steps (rendered args))).
  { intros c Hc. rewrite Hn in Hc. now apply In_firstn in Hc. }
  split; [exact Hall |].
  intros v' c Hc Hb. exact (branch_call_version (Hall c Hc) Hb).
Qed.

(** ** Runs that raise *)

Section Raising.

Context {W : Type} (os : OS W).

(** When [os.chdir] fails the run raises [OSError] after the clone and the
    attempt to enter the directory, and makes no other call. *)
Theorem missing_directory_stops (args : Namespace) (w : W) (path : string) :
  In (EvChdir path false) (snd (run os args w)) ->
  exists s,
    run os args w =
    (Raise OSError,
     [EvSystem "git clone codecommit::us-west-2://aws-tensorflow" s;
      EvChdir "aws-tensorflow/" false]).
Proof.
  intros Hin.
  destruct (run_has_shape os args w) as
    [s1 | s1 s2 s3 s4 He | s1 s2 s3 s4 | s1 s2 s3 s4 c' Hc
     | s1 s2 s3 s4 c' out Hc Hp | s1 s2 s3 s4 s5 c' out Hc Hp Hs
     | s1 s2 s3 s4 s5 s6 s7 c' out Hc Hp Hs];
    cbn [snd prelude before_echo app In] in Hin;
    repeat (destruct Hin as [Hin | Hin]; try discriminate Hin);
    try contradiction.
  now exists s1.
Qed.

(** When [git pull] cannot be started the run raises [OSError] right there:
    the four shell commands and the echo of the command line were made,
    nothing is printed or run afterwards. *)
Theorem pull_not_started_stops (args : Namespace) (w : W)
  (argv : list string) :
  In (EvRun argv None) (snd (run os args w)) ->
  argv = ["git"; "pull"; "--commit"; "google"; "r" ++ rendered args] /\
  exists s1 s2 s3 s4,
    run os args w =
    (Raise OSError,
     [EvSystem "git clone codecommit::us-west-2://aws-tensorflow" s1;
      EvChdir "aws-tensorflow/" true;
      EvSystem ("git checkout " ++ "r" ++ rendered args ++ "_aws") s2;
      EvSystem ("git checkout -b " ++ "r" ++ rendered args ++ "_aws_git") s3;
      EvSystem
        "git remote add google https://github.com/tensorflow/tensorflow.git"
        s4;
      EvPrint ("git pull --commit google " ++ "r" ++ rendered args ++ nl);
      EvRun argv None]).
Proof.
  intros Hin.
  destruct (run_has_shape os args w) as
    [s1 | s1 s2 s3 s4 He | s1 s2 s3 s4 | s1 s2 s3 s4 c' Hc
     | s1 s2 s3 s4 c' out Hc Hp | s1 s2 s3 s4 s5 c' out Hc Hp Hs
     | s1 s2 s3 s4 s5 s6 s7 c' out Hc Hp Hs];
    cbn [snd prelude before_echo app In] in Hin;
    repeat (destruct Hin as [Hin | Hin]; try discriminate Hin);
    try contradiction.
  injection Hin as <-. split; [reflexivity |].
  now exists s1, s2, s3, s4.
Qed.

(** When the standard output of [git pull] is not well-formed UTF-8 the run
    raises [UnicodeDecodeError] right after [git pull]: the output is not
    printed, [git status] is not run, and nothing is pushed. *)
Theorem undecodable_output_stops (args : Namespace) (w : W)
  (argv : list string) (c : child) :
  In (EvRun argv (Some c)) (snd (run os args w)) ->
  utf8_valid (to_stdout c) = false ->
  fst (run os args w) = Raise UnicodeDecodeError /\
  (exists l, snd (run os args w) = (l ++ [EvRun argv (Some c)])%list) /\
  decision_of (snd (run os args w)) = None /\
  pushes (snd (run os args w)) = false /\
  opens_pull_request (snd (run os args w)) = false.
Proof.
  intros Hin Hbad.
  assert (Hdec : decode_utf8 (to_stdout c) = Raise UnicodeDecodeError)
    by (unfold decode_utf8; now rewrite Hbad).
  destruct (run_has_shape os args w) as
    [s1 | s1 s2 s3 s4 He | s1 s2 s3 s4 | s1 s2 s3 s4 c' Hc
     | s1 s2 s3 s4 c' out Hc Hp | s1 s2 s3 s4 s5 c' out Hc Hp Hs
     | s1 s2 s3 s4 s5 s6 s7 c' out Hc Hp Hs];
    cbn [snd prelude before_echo app In] in Hin;
    repeat (destruct Hin as [Hin | Hin]; try discriminate Hin);
    try contradiction;
    injection Hin as <- <-; try (rewrite Hdec in Hc; discriminate Hc).
  cbn [fst snd]. split; [reflexivity |].
  split; [now exists (prelude (rendered args) s1 s2 s3 s4) |].
  repeat split.
Qed.

(** Building the command lines never fails: whatever the version is, braces
    in its text included, a run raises neither [ValueError] nor
    [KeyError]. *)
Theorem formatting_never_raises (args : Namespace) (w : W) :
  fst (run os args w) <> Raise ValueError /\
  forall key, fst (run os args w) <> Raise (KeyError key).
Proof.
  destruct (run_has_shape os args w); cbn [fst];
    (split; [intros E | intros key E]; discriminate E).
Qed.


End Raising.

Lemma missing_directory_stops_witness :
  exists s,
    run no_directory (parse_args (Some "2.4")) tt =
    (Raise OSError,
     [EvSystem "git clone codecommit::us-west-2://aws-tensorflow" s;
      EvChdir "aws-tensorflow/" false]).
Proof.
  apply (@missing_directory_stops unit no_directory
           (parse_args (Some "2.4")) tt "aws-tensorflow/").
  vm_compute. right. left. reflexivity.
Defined.

Lemma pull_not_started_stops_witness :
  let args := parse_args (Some "2.4") in
  pull_argv "r2.4" =
  ["git"; "pull"; "--commit"; "google"; "r" ++ rendered args] /\
  exists s1 s2 s3 s4,
    run no_git args tt =
    (Raise OSError,
     [EvSystem "git clone codecommit::us-west-2://aws-tensorflow" s1;
      EvChdir "aws-tensorflow/" true;
      EvSystem ("git checkout " ++ "r" ++ rendered args ++ "_aws") s2;
      EvSystem ("git checkout -b " ++ "r" ++ rendered args ++ "_aws_git") s3;
      EvSystem
        "git remote add google https://github.com/tensorflow/tensorflow.git"
        s4;
      EvPrint ("git pull --commit google " ++ "r" ++ rendered args ++ nl);
      EvRun (pull_argv "r2.4") None]).
Proof.
  apply (@pull_not_started_stops unit no_git (parse_args (Some "2.4")) tt
           (pull_argv "r2.4")).
  vm_compute. do 6 right. left. reflexivity.
Defined.

Lemma undecodable_output_stops_witness :
  let r := run (scripted 0 stray_byte "") (parse_args (Some "2.4")) tt in
  fst r = Raise UnicodeDecodeError /\
  (exists l,
     snd r =
     (l ++ [EvRun (pull_argv "r2.4")
              (Some {| exit_status := 0;
                       to_stdout := list_byte_of_string stray_byte;
                       to_stderr := [] |})])%list) /\
  decision_of (snd r) = None /\
  pushes (snd r) = false /\
  opens_pull_request (snd r) = false.
Proof.
  apply (@undecodable_output_stops unit (scripted 0 stray_byte "")
           (parse_args (Some "2.4")) tt (pull_argv "r2.4")
           {| exit_status := 0;
              to_stdout := list_byte_of_string stray_byte;
              to_stderr := [] |}).
  - vm_compute. do 6 right. left. reflexivity.
  - reflexivity.
Defined.

(** ** The exit status and the echo of [git pull] *)

Section Pull.

Context {W : Type} (os : OS W).

Ltac step_pull :=
  cbn [bind lift ret os_system os_chdir subprocess_run record
       world log fst snd app stdout with_exit_status
       system chdir spawn to_stdout].

Lemma can_print_with_exit_status (code : list string -> W -> Z)
  (text : string) :
  can_print (with_exit_status os code) text = can_print os text.
Proof. reflexivity. Qed.

(** The exit status of [git pull] is not looked at either: whatever it is,
    the run has the same result, makes the same calls and takes the same
    decision, so a pull that failed without printing "Already up to date"
    is followed by the push and the pull request. *)
Theorem pull_exit_status_ignored (code : list string -> W -> Z)
  (args : Namespace) (w : W) :
  fst (run (with_exit_status os code) args w) = fst (run os args w) /\
  map call_of (snd (run (with_exit_status os code) args w)) =
  map call_of (snd (run os args w)) /\
  decision_of (snd (run (with_exit_status os code) args w)) =
  decision_of (snd (run os args w)).
Proof.
  unfold run, main. render. step_pull. rewrite !bind_chdir. step_pull.
  destruct (chdir os _ _) as [w2|]; [| repeat split].
  render. step_pull. rewrite !bind_print, !can_print_with_exit_status.
  destruct (can_print os _); [| repeat split].
  step_pull. rewrite !bind_run. step_pull.
  destruct (fst (spawn os _ _)) as [c|]; [| repeat split].
  rewrite ?bind_lift. step_pull.
  destruct (decode_utf8 (to_stdout c)) as [output|e]; [| repeat split].
  step_pull. rewrite !bind_print, !can_print_with_exit_status.
  destruct (can_print os _); [| repeat split].
  step_pull. destruct (str_in up_to_date_text output);
    rewrite ?print_message; step_pull; repeat split.
Qed.


End Pull.

(** ** The names, across versions and among themselves *)

(** Two versions give the same target branch, the same upstream branch, the
    same new-branch command or the same push command exactly when their
    texts are equal: runs for different versions never share a branch. *)
Theorem branch_names_injective (a b : Namespace) :
  (tf_branch a = tf_branch b <->
   py_str (tf_version a) = py_str (tf_version b)) /\
  (git_branch a = git_branch b <->
   py_str (tf_version a) = py_str (tf_version b)) /\
  (new_branch_command a = new_branch_command b <->
   py_str (tf_version a) = py_str (tf_version b)) /\
  (push_command a = push_command b <->
   py_str (tf_version a) = py_str (tf_version b)).
Proof.
  rewrite !tf_branch_eq, !git_branch_eq, !new_branch_command_eq,
    !push_command_eq.
  unfold rendered.
  repeat split; intros H; try (now rewrite H); injection H as H; peel H;
    first [exact H | now apply append_inv_tail in H].
Qed.

(** For every version the target branch, the upstream branch and the sync
    branch are three different names: the branch that is created is never
    the release branch or the upstream branch. *)
Theorem branch_names_distinct (args : Namespace) :
  exists target upstream,
    tf_branch args = Ok target /\
    git_branch args = Ok upstream /\
    new_branch_command args = Ok ("git checkout -b " ++ target ++ "_git") /\
    target <> upstream /\
    target ++ "_git" <> target /\
    target ++ "_git" <> upstream.
Proof.
  exists (target_branch (rendered args)), (upstream_branch (rendered args)).
  rewrite tf_branch_eq, git_branch_eq, new_branch_command_eq.
  unfold target_branch, upstream_branch, git_checkout_new, sync_branch.
  repeat split.
  - simpl. now rewrite append_assoc.
  - intros H. apply (f_equal String.length) in H.
    simpl in H. rewrite length_append in H. simpl in H. lia.
  - intros H. apply (f_equal String.length) in H.
    rewrite length_append in H. simpl in H. lia.
  - intros H. apply (f_equal String.length) in H.
    rewrite length_append in H. simpl in H. rewrite length_append in H.
    simpl in H. lia.
Qed.

(** ** Decoding *)





(** ** What a run never does *)

(** The nine calls for a version are nine different calls. *)
Lemma nine_steps_differ (v : string) : NoDup (steps v ++ sync_steps v).
Proof.
  unfold steps, sync_steps. cbn [app].
  repeat (constructor;
          [ cbn [In]; intros H;
            repeat (destruct H as [H | H]); try contradiction;
            try discriminate H; injection H as H;
            unfold create_pull_request in H; peel H
          | ]).
  constructor.
Qed.

Lemma NoDup_firstn {A : Type} (n : nat) (l : list A) :
  NoDup l -> NoDup (firstn n l).
Proof.
  intros H. rewrite <- (firstn_skipn n l) in H.
  now apply NoDup_app_remove_r in H.
Qed.

(** No call that leaves the process is made twice in a run, and every shell
    command of a run, whatever the version text, starts with [git] or is
    the pull request command. *)
Theorem no_call_repeated {W : Type} (os : OS W) (args : Namespace) (w : W) :
  NoDup (invocations (snd (run os args w))) /\
  forall cmd,
    In (CSystem cmd) (invocations (snd (run os args w))) ->
    prefix "git " cmd = true \/
    prefix "aws codecommit create-pull-request " cmd = true.
Proof.
  destruct (invocations_initial os args w) as [n Hn]. rewrite Hn. split.
  - apply NoDup_firstn, nine_steps_differ.
  - intros cmd Hin. apply In_firstn in Hin.
    unfold steps, sync_steps in Hin. cbn [app In] in Hin.
    repeat (destruct Hin as [Hin | Hin]); try contradiction;
      try discriminate Hin; injection Hin as <-;
      first [now left | now right].
Qed.
